(** * The build orchestration pipeline of image-builder

    A shallow embedding of [cmd/image-builder/main.go]: the commands
    [cmdManifest] and [cmdBuild], the shared manifest stage
    [cmdManifestWrapper], [progressFromCmd], [ostreeImageOptions] and
    [outputNameFor].

    The commands are sequences of calls to collaborators (blueprint loader,
    image selection, manifest generator, build engine, upload client,
    progress reporter).  Each call is recorded, with its arguments and its
    outcome, in a trace; a command is a function from the trace so far to
    the extended trace and either an error or a value.  The collaborators
    are the fields of an environment record [Env]: the theorems hold for
    every behaviour they can have. *)

From stdpp Require Import base option list strings gmap.
From Stdlib Require Import Strings.Byte.

Open Scope string_scope.
Open Scope list_scope.

(** ** Errors

    Go [error] values as far as the commands look into them: plain errors
    made by [fmt.Errorf] or [errors.New] (kept as format and arguments),
    errors wrapping a cause with [%w], and the two error types that
    [cmdBuild] asks for with [errors.As].  [RuntimePanic] stands for a
    run-time panic (an index out of range), which unwinds the command the
    way a returned error does. *)
Inductive error : Type :=
| Errorf (format : string) (args : list string)
| Wrapf (format : string) (cause : error)
| MissingUploadConfigError (missing : list string) (allMissing : bool)
| UploadTypeUnsupportedError (typ : string)
| RuntimePanic (msg : string).

#[global] Instance error_eq_dec : EqDecision error.
Proof. solve_decision. Defined.

(** [errors.As(err, &target)] for [target : *MissingUploadConfigError]:
    the first error of that type in the chain of causes. *)
Fixpoint errors_As_MissingUploadConfigError (err : error) : option (list string * bool) :=
  match err with
  | MissingUploadConfigError missing allMissing => Some (missing, allMissing)
  | Wrapf _ cause => errors_As_MissingUploadConfigError cause
  | _ => None
  end.

(** [errors.As(err, &target)] for [target : *UploadTypeUnsupportedError]. *)
Fixpoint errors_As_UploadTypeUnsupportedError (err : error) : option string :=
  match err with
  | UploadTypeUnsupportedError typ => Some typ
  | Wrapf _ cause => errors_As_UploadTypeUnsupportedError cause
  | _ => None
  end.

(** ** Command-line flags

    The flag set of a [cobra.Command]: a finite map from flag names to
    typed values.  A lookup fails when the flag is not defined for the
    command or has another type, as pflag's getters do. *)
Inductive FlagValue : Type :=
| FString (s : string)
| FBool (b : bool)
| FStringArray (l : list string).

Definition flagTypeName (v : FlagValue) : string :=
  match v with
  | FString _ => "string"
  | FBool _ => "bool"
  | FStringArray _ => "stringArray"
  end.

Definition flagNotDefined {A} (name : string) : error + A :=
  inl (Errorf "flag accessed but not defined: %s" [name]).

Definition flagWrongType {A} (want : string) (v : FlagValue) : error + A :=
  inl (Errorf "trying to get %s value of flag of type %s" [want; flagTypeName v]).

Definition GetString (cmd : gmap string FlagValue) (name : string) : error + string :=
  match cmd !! name with
  | Some (FString s) => inr s
  | Some v => flagWrongType "string" v
  | None => flagNotDefined name
  end.

Definition GetBool (cmd : gmap string FlagValue) (name : string) : error + bool :=
  match cmd !! name with
  | Some (FBool b) => inr b
  | Some v => flagWrongType "bool" v
  | None => flagNotDefined name
  end.

Definition GetStringArray (cmd : gmap string FlagValue) (name : string) : error + list string :=
  match cmd !! name with
  | Some (FStringArray l) => inr l
  | Some v => flagWrongType "stringArray" v
  | None => flagNotDefined name
  end.

(** ** Data of the pipeline *)

(** [imagefilter.Result]: the resolved distribution, image type and
    architecture, through the accessors the commands use. *)
Record Result : Type := {
  Distro_Name : string;
  ImgType_Name : string;
  ImgType_Filename : string;
  Arch_Name : string
}.

Record Blueprint : Type := { bp_Distro : string }.

Record repoOptions : Type := {
  ro_DataDir : string;
  ro_ExtraRepos : list string;
  ro_ForceRepos : list string
}.

Record ostree_ImageOptions : Type := {
  ImageRef : string;
  ParentRef : string;
  URL : string
}.

(** [osbuild.RpmDownloader]; [rpmDownloader] keeps the zero value of the
    type unless [--use-librepo] is set. *)
Inductive RpmDownloader : Type := RpmDownloaderZero | RpmDownloaderLibrepo.

Record manifestOptions : Type := {
  mo_OutputDir : string;
  mo_BlueprintPath : string;
  mo_Ostree : option ostree_ImageOptions;
  mo_RpmDownloader : RpmDownloader;
  mo_WithSBOM : bool;
  mo_ForceRepos : list string
}.

Record buildOptions : Type := {
  OutputDir : string;
  StoreDir : string;
  WriteManifest : bool
}.

(** The manifest is an opaque byte sequence. *)
Definition Manifest : Type := list byte.

(** Handles of the progress reporter and of the upload client. *)
Inductive ProgressBar : Type := ProgressBarHandle (id : nat).
Inductive Uploader : Type := UploaderHandle (region bucket ami : string).

(** ** Traces *)

(** One event per call to a collaborator, with the arguments passed and,
    for the calls that can fail, the outcome. *)
Inductive Event : Type :=
| EvProgressNew (kind : string) (r : error + ProgressBar)
| EvPbarStart (pbar : ProgressBar)
| EvPbarStop (pbar : ProgressBar)
| EvSetPulseMsg (pbar : ProgressBar) (msg : string)
| EvSetMessage (pbar : ProgressBar) (msg : string)
| EvBlueprintLoad (path : string) (r : error + Blueprint)
| EvFindDistro (argDistro bpDistro : string) (r : error + string)
| EvGetOneImage (distro imgType arch : string) (repoOpts : repoOptions) (r : error + Result)
| EvGenerateManifest (dataDir : string) (extraRepos : list string) (img : Result)
    (opts : manifestOptions) (r : error + Manifest)
| EvUploaderFor (typ : string) (r : option Uploader * option error)
| EvUploaderCheck (uploader : Uploader) (r : option error)
| EvBuildImage (img : Result) (mf : Manifest) (opts : buildOptions) (r : option error)
| EvUploadImage (uploader : Uploader) (imagePath : string) (r : option error).

(** ** The collaborators *)
Record Env : Type := {
  (* arch.Current().String() *)
  host_arch : string;
  (* progress.New *)
  progress_New : string -> error + ProgressBar;
  (* blueprintload.Load *)
  blueprintload_Load : string -> error + Blueprint;
  findDistro : string -> string -> error + string;
  getOneImage : string -> string -> string -> repoOptions -> error + Result;
  (* the manifest written to the writer, or an error *)
  generateManifest : string -> list string -> Result -> manifestOptions -> error + Manifest;
  (* Go's pair (cloud.Uploader, error) *)
  uploaderFor : gmap string FlagValue -> string -> option Uploader * option error;
  uploaderCheckWithProgress : ProgressBar -> Uploader -> option error;
  buildImage : ProgressBar -> Result -> Manifest -> buildOptions -> option error;
  uploadImageWithProgress : Uploader -> string -> option error;
  filepath_Join : list string -> string
}.

(** ** Commands as trace transformers *)
Definition M (A : Type) : Type := list Event -> list Event * (error + A).

Definition ret {A} (a : A) : M A := fun t => (t, inr a).

Definition fail {A} (e : error) : M A := fun t => (t, inl e).

Definition bind {A B} (m : M A) (k : A -> M B) : M B :=
  fun t =>
    match m t with
    | (t', inr a) => k a t'
    | (t', inl e) => (t', inl e)
    end.

Notation "x <- m ;; k" := (bind m (fun x => k))
  (at level 100, m at next level, right associativity).
Notation "m ;;; k" := (bind m (fun _ => k))
  (at level 100, right associativity).

(** A flag lookup or another pure step that can fail. *)
Definition lift {A} (r : error + A) : M A := fun t => (t, r).

(** An effect without a result. *)
Definition emit (ev : Event) : M unit := fun t => (t ++ [ev], inr tt).

(** A call that returns a value or an error. *)
Definition call {A} (ev : error + A -> Event) (r : error + A) : M A :=
  fun t => (t ++ [ev r], r).

(** A call that returns only an error, or nil. *)
Definition callE (ev : option error -> Event) (r : option error) : M unit :=
  fun t => (t ++ [ev r], match r with Some e => inl e | None => inr tt end).

(** A call whose outcome is handed to the caller as it is. *)
Definition callP {A} (ev : A -> Event) (r : A) : M A :=
  fun t => (t ++ [ev r], inr r).

(** [defer]: the event happens when the body returns, whatever it
    returns. *)
Definition defer {A} (ev : Event) (body : M A) : M A :=
  fun t => match body t with (t', r) => (t' ++ [ev], r) end.

Definition trace {A} (m : M A) : list Event := fst (m []).
Definition result {A} (m : M A) : error + A := snd (m []).

(** [args[0]] *)
Definition index0 (args : list string) : error + string :=
  match args with
  | a :: _ => inr a
  | [] => inl (RuntimePanic "index out of range [0] with length 0")
  end.

(** ** The functions of main.go *)

(** [fmt.Sprintf("%s-%s-%s", ...)] *)
Definition outputNameFor (img : Result) : string :=
  Distro_Name img +:+ "-" +:+ ImgType_Name img +:+ "-" +:+ Arch_Name img.

Definition ostreeImageOptions (cmd : gmap string FlagValue) : error + option ostree_ImageOptions :=
  match GetString cmd "ostree-ref" with
  | inl err => inl err
  | inr imageRef =>
    match GetString cmd "ostree-parent" with
    | inl err => inl err
    | inr parentRef =>
      match GetString cmd "ostree-url" with
      | inl err => inl err
      | inr url =>
        if bool_decide (imageRef = "") && bool_decide (parentRef = "") && bool_decide (url = "")
        then inr None
        else inr (Some {| ImageRef := imageRef; ParentRef := parentRef; URL := url |})
      end
    end
  end.

(** The writer [w] is the manifest returned next to the image.  On a
    failure of [generateManifest] Go returns the image together with the
    error; both callers drop the image then. *)
Definition cmdManifestWrapper (env : Env) (pbar : ProgressBar) (cmd : gmap string FlagValue)
    (args : list string) (archChecker : option (string -> option error)) : M (Result * Manifest) :=
  dataDir <- lift (GetString cmd "datadir") ;;
  extraRepos <- lift (GetStringArray cmd "extra-repo") ;;
  forceRepos <- lift (GetStringArray cmd "force-repo") ;;
  archStr <- lift (GetString cmd "arch") ;;
  let archStr := if bool_decide (archStr = "") then host_arch env else archStr in
  distroStr <- lift (GetString cmd "distro") ;;
  withSBOM <- lift (GetBool cmd "with-sbom") ;;
  outputDir <- lift (GetString cmd "output-dir") ;;
  ostreeImgOpts <- lift (ostreeImageOptions cmd) ;;
  useLibrepo <- lift (GetBool cmd "use-librepo") ;;
  let rpmDownloader := if useLibrepo : bool then RpmDownloaderLibrepo else RpmDownloaderZero in
  blueprintPath <- lift (GetString cmd "blueprint") ;;
  bp <- call (EvBlueprintLoad blueprintPath) (blueprintload_Load env blueprintPath) ;;
  distroStr <- call (EvFindDistro distroStr (bp_Distro bp))
                    (findDistro env distroStr (bp_Distro bp)) ;;
  imgTypeStr <- lift (index0 args) ;;
  emit (EvSetPulseMsg pbar "Manifest generation step") ;;;
  emit (EvSetMessage pbar ("Building manifest for " +:+ distroStr +:+ "-" +:+ imgTypeStr)) ;;;
  let repoOpts :=
    {| ro_DataDir := dataDir; ro_ExtraRepos := extraRepos; ro_ForceRepos := forceRepos |} in
  img <- call (EvGetOneImage distroStr imgTypeStr archStr repoOpts)
              (getOneImage env distroStr imgTypeStr archStr repoOpts) ;;
  match archChecker with
  | Some checker =>
      match checker (Arch_Name img) with
      | Some err => fail err
      | None => ret tt
      end
  | None => ret tt
  end ;;;
  let opts :=
    {| mo_OutputDir := outputDir; mo_BlueprintPath := blueprintPath;
       mo_Ostree := ostreeImgOpts; mo_RpmDownloader := rpmDownloader;
       mo_WithSBOM := withSBOM; mo_ForceRepos := forceRepos |} in
  mf <- call (EvGenerateManifest dataDir extraRepos img opts)
             (generateManifest env dataDir extraRepos img opts) ;;
  ret (img, mf).

(** The manifest goes to standard output. *)
Definition cmdManifest (env : Env) (cmd : gmap string FlagValue) (args : list string) : M unit :=
  pbar <- call (EvProgressNew "") (progress_New env "") ;;
  cmdManifestWrapper env pbar cmd args None ;;;
  ret tt.

Definition progressFromCmd (env : Env) (cmd : gmap string FlagValue) : M ProgressBar :=
  progressType <- lift (GetString cmd "progress") ;;
  verbose <- lift (GetBool cmd "verbose") ;;
  let progressType :=
    if bool_decide (progressType = "auto") && verbose then "verbose" else progressType in
  call (EvProgressNew progressType) (progress_New env progressType).

(** The function literal that [cmdBuild] passes as [archChecker]. *)
Definition buildArchChecker (env : Env) (archStr : string) : option error :=
  if bool_decide (archStr ≠ host_arch env)
  then Some (Errorf "cannot build for arch %q from %q" [archStr; host_arch env])
  else None.

(** The goroutine that waits for an interrupt and stops the progress
    reporter is not part of the sequential run and is left out. *)
Definition cmdBuild (env : Env) (cmd : gmap string FlagValue) (args : list string) : M unit :=
  cacheDir <- lift (GetString cmd "cache") ;;
  outputDir <- lift (GetString cmd "output-dir") ;;
  withManifest <- lift (GetBool cmd "with-manifest") ;;
  pbar <- progressFromCmd env cmd ;;
  emit (EvPbarStart pbar) ;;;
  defer (EvPbarStop pbar) (
    manifested <- cmdManifestWrapper env pbar cmd args (Some (buildArchChecker env)) ;;
    let '(res, mf) := manifested in
    resolved <- callP (EvUploaderFor (ImgType_Name res)) (uploaderFor env cmd (ImgType_Name res)) ;;
    let '(uploader, err) := resolved in
    match err with
    | Some e =>
        if negb (bool_decide (is_Some (errors_As_MissingUploadConfigError e)))
           && negb (bool_decide (is_Some (errors_As_UploadTypeUnsupportedError e)))
        then fail e else ret tt
    | None => ret tt
    end ;;;
    match err with
    | Some e =>
        match errors_As_MissingUploadConfigError e with
        | Some (_, allMissing) =>
            if negb allMissing
            then fail (Wrapf "partial upload config provided: %w" e) else ret tt
        | None => ret tt
        end
    | None => ret tt
    end ;;;
    match uploader with
    | Some u =>
        emit (EvSetPulseMsg pbar "Checking cloud access") ;;;
        callE (EvUploaderCheck u) (uploaderCheckWithProgress env pbar u)
    | None => ret tt
    end ;;;
    let outputDir := if bool_decide (outputDir = "") then outputNameFor res else outputDir in
    let buildOpts :=
      {| OutputDir := outputDir; StoreDir := cacheDir; WriteManifest := withManifest |} in
    emit (EvSetPulseMsg pbar "Image building step") ;;;
    callE (EvBuildImage res mf buildOpts) (buildImage env pbar res mf buildOpts) ;;;
    match uploader with
    | Some u =>
        emit (EvPbarStop pbar) ;;;
        let imagePath :=
          filepath_Join env [outputDir; ImgType_Name res; ImgType_Filename res] in
        callE (EvUploadImage u imagePath) (uploadImageWithProgress env u imagePath)
    | None => ret tt
    end ;;;
    ret tt).

(** [run] registers the flags.  [cmd.Flags()] of a subcommand holds its
    own flags and the persistent flags of the root command; these are the
    flag sets before the command line is parsed.  [--to] is added to the
    upload command after the build command took its flags over, so build
    has none. *)
Definition persistentFlags : gmap string FlagValue :=
  list_to_map
    [ ("datadir", FString ""); ("extra-repo", FStringArray []);
      ("force-repo", FStringArray []); ("output-dir", FString "");
      ("verbose", FBool false) ].

Definition manifestCmdFlags : gmap string FlagValue :=
  list_to_map
    [ ("blueprint", FString ""); ("arch", FString ""); ("distro", FString "");
      ("ostree-ref", FString ""); ("ostree-parent", FString "");
      ("ostree-url", FString ""); ("use-librepo", FBool true);
      ("with-sbom", FBool false) ].

Definition uploadCmdFlags : gmap string FlagValue :=
  list_to_map
    [ ("aws-ami-name", FString ""); ("aws-bucket", FString "");
      ("aws-region", FString "") ].

Definition buildCmdFlags : gmap string FlagValue :=
  list_to_map
    [ ("with-manifest", FBool false);
      ("cache", FString "/var/cache/image-builder/store");
      ("progress", FString "auto") ]
  ∪ manifestCmdFlags ∪ uploadCmdFlags.

(** The flags a command sees once the root's persistent flags are merged
    in. *)
Definition manifestFlags : gmap string FlagValue := manifestCmdFlags ∪ persistentFlags.
Definition buildFlags : gmap string FlagValue := buildCmdFlags ∪ persistentFlags.

(** ** The upload configuration resolver *)

(** The flags of the build command that configure an upload. *)
Definition uploadFlagNames : list string := ["aws-ami-name"; "aws-bucket"; "aws-region"].

(** A flag counts as supplied when it holds a non-empty string. *)
Definition flagSupplied (cmd : gmap string FlagValue) (name : string) : bool :=
  match GetString cmd name with
  | inr s => negb (bool_decide (s = ""))
  | inl _ => false
  end.


(** Modelled from the spec: [uploaderFor] of cmd/image-builder/upload.go,
    which is not among the sources.  Section 4.1 and 7 of the
    specification: an image type that cannot be uploaded gives the
    unsupported-upload error; for a supported one, no required field
    present gives the missing-configuration error with every field
    missing ("not requested"), some but not all present gives it as a
    partial configuration, and all present give the upload client.
    Which image types can be uploaded is the parameter
    [supportsUpload]. *)
Definition uploaderFor_spec (supportsUpload : string -> bool)
    (cmd : gmap string FlagValue) (typeOrCloud : string) : option Uploader * option error :=
  if negb (supportsUpload typeOrCloud)
  then (None, Some (UploadTypeUnsupportedError typeOrCloud))
  else
    match GetString cmd "aws-ami-name", GetString cmd "aws-bucket", GetString cmd "aws-region" with
    | inr amiName, inr bucketName, inr region =>
        let missing := filter (fun name => flagSupplied cmd name = false) uploadFlagNames in
        if bool_decide (missing = [])
        then (Some (UploaderHandle region bucketName amiName), None)
        else (None, Some (MissingUploadConfigError missing
                            (bool_decide (length missing = length uploadFlagNames))))
    | inl err, _, _ => (None, Some err)
    | _, inl err, _ => (None, Some err)
    | _, _, inl err => (None, Some err)
    end.

(** ** A sample environment

    A host of architecture x86_64 whose catalog knows two distributions,
    two image types and two architectures; only [ami] images can be
    uploaded. *)
Definition knownImage (distro imgType arch : string) : bool :=
  bool_decide (distro ∈ ["centos-9"; "fedora-41"])
  && bool_decide (imgType ∈ ["qcow2"; "ami"])
  && bool_decide (arch ∈ ["x86_64"; "aarch64"]).

Definition sampleEnv : Env := {|
  host_arch := "x86_64";
  progress_New := fun kind =>
    if bool_decide (kind ∈ [""; "auto"; "verbose"; "term"; "debug"])
    then inr (ProgressBarHandle 0)
    else inl (Errorf "unknown progress type: %q" [kind]);
  blueprintload_Load := fun path =>
    if bool_decide (path = "") then inr {| bp_Distro := "" |}
    else inl (Errorf "open %s: no such file or directory" [path]);
  findDistro := fun argDistro bpDistro =>
    if negb (bool_decide (argDistro = "")) then inr argDistro
    else if negb (bool_decide (bpDistro = "")) then inr bpDistro
    else inr "fedora-41";
  getOneImage := fun distro imgType arch _ =>
    if knownImage distro imgType arch
    then inr {| Distro_Name := distro; ImgType_Name := imgType;
                ImgType_Filename := "disk." +:+ imgType; Arch_Name := arch |}
    else inl (Errorf "cannot find image for: distro:%q type:%q arch:%q" [distro; imgType; arch]);
  generateManifest := fun _ _ _ _ => inr [x7b; x7d];
  uploaderFor := uploaderFor_spec (fun typ => bool_decide (typ ∈ ["ami"; "aws"]));
  uploaderCheckWithProgress := fun _ _ => None;
  buildImage := fun _ _ _ _ => None;
  uploadImageWithProgress := fun _ _ => None;
  filepath_Join := fun elems => foldr (fun e acc => if bool_decide (acc = "") then e else e +:+ "/" +:+ acc) "" elems
|}.

(** Command lines used as examples. *)

(** [build ami --aws-ami-name img --aws-bucket mybucket --aws-region us-east-1] *)
Definition buildAmiUpload : gmap string FlagValue :=
  <["aws-ami-name" := FString "img"]>
  (<["aws-bucket" := FString "mybucket"]>
  (<["aws-region" := FString "us-east-1"]> buildFlags)).

(** [build ami --aws-bucket mybucket] *)
Definition buildAmiBucketOnly : gmap string FlagValue :=
  <["aws-bucket" := FString "mybucket"]> buildFlags.

(** [build qcow2 --arch aarch64] and [manifest qcow2 --arch aarch64] *)
Definition buildCrossArch : gmap string FlagValue :=
  <["arch" := FString "aarch64"]> buildFlags.
Definition manifestCrossArch : gmap string FlagValue :=
  <["arch" := FString "aarch64"]> manifestFlags.


(** [build qcow2 --verbose] *)
Definition buildVerbose : gmap string FlagValue :=
  <["verbose" := FBool true]> buildFlags.

(** ** Reading traces *)

(** The four operations of the pipeline whose order matters: manifest
    generation, the upload access check, build execution and the transfer
    of the image. *)
Inductive Op : Type := OpManifest | OpAccessCheck | OpBuild | OpTransfer.

#[global] Instance Op_eq_dec : EqDecision Op.
Proof. solve_decision. Defined.

Definition opOf (ev : Event) : option Op :=
  match ev with
  | EvGenerateManifest _ _ _ _ _ => Some OpManifest
  | EvUploaderCheck _ _ => Some OpAccessCheck
  | EvBuildImage _ _ _ _ => Some OpBuild
  | EvUploadImage _ _ _ => Some OpTransfer
  | _ => None
  end.

(** The operations of a trace, in the order they happened. *)
Definition ops (t : list Event) : list Op := omap opOf t.

(** [before a b l]: an [a] occurs in [l] strictly before a [b]. *)
Fixpoint before (a b : Op) (l : list Op) : bool :=
  match l with
  | [] => false
  | x :: l' => (bool_decide (x = a) && bool_decide (b ∈ l')) || before a b l'
  end.

(** The steps of the manifest stage that resolve the image and announce
    the stage. *)
Inductive Step : Type := StepResolve | StepPulse | StepDetail.

Definition stepOf (ev : Event) : option Step :=
  match ev with
  | EvGetOneImage _ _ _ _ _ => Some StepResolve
  | EvSetPulseMsg _ msg =>
      if String.eqb msg "Manifest generation step" then Some StepPulse else None
  | EvSetMessage _ _ => Some StepDetail
  | _ => None
  end.

Definition steps (t : list Event) : list Step := omap stepOf t.

(** What a command returns when its last call returned [r]. *)
Definition status (r : option error) : error + unit :=
  match r with
  | Some e => inl e
  | None => inr tt
  end.

(** ** The other commands of main.go *)

(** [cmdListImages]; [listImages] is the function of the same package
    that prints the list.  The command takes no arguments. *)
Definition cmdListImages
    (listImages : string -> list string -> string -> list string -> option error)
    (cmd : gmap string FlagValue) : error + unit :=
  match GetStringArray cmd "filter" with
  | inl err => inl err
  | inr filter =>
    match GetString cmd "output" with
    | inl err => inl err
    | inr output =>
      match GetString cmd "datadir" with
      | inl err => inl err
      | inr dataDir =>
        match GetStringArray cmd "extra-repo" with
        | inl err => inl err
        | inr extraRepos => status (listImages dataDir extraRepos output filter)
        end
      end
    end
  end.

(** [cmdDescribeImg]; [describeImage] writes the description to standard
    output, it is the last call of the command and its outcome is the
    outcome of the command.  The repository options hold the data
    directory only; the other fields keep their zero value. *)
Definition cmdDescribeImg (env : Env) (describeImage : Result -> option error)
    (cmd : gmap string FlagValue) (args : list string) : M unit :=
  dataDir <- lift (GetString cmd "datadir") ;;
  distroStr <- lift (GetString cmd "distro") ;;
  archStr <- lift (GetString cmd "arch") ;;
  let archStr := if bool_decide (archStr = "") then host_arch env else archStr in
  imgTypeStr <- lift (index0 args) ;;
  let repoOpts := {| ro_DataDir := dataDir; ro_ExtraRepos := []; ro_ForceRepos := [] |} in
  res <- call (EvGetOneImage distroStr imgTypeStr archStr repoOpts)
              (getOneImage env distroStr imgTypeStr archStr repoOpts) ;;
  lift (status (describeImage res)).

(** The flags that [run] registers for [list-images] and
    [describe-image], with the persistent flags of the root. *)
Definition listImagesFlags : gmap string FlagValue :=
  list_to_map [ ("filter", FStringArray []); ("output", FString "") ] ∪ persistentFlags.

Definition describeImgFlags : gmap string FlagValue :=
  list_to_map [ ("arch", FString ""); ("distro", FString "") ] ∪ persistentFlags.

(** Parsing a command line changes the values of the registered flags,
    never their names or types: [cmd] has the shape of [registered] when
    it holds a value of the registered type under every registered
    name. *)
Definition sameShape (registered cmd : gmap string FlagValue) : Prop :=
  map_Forall (λ name v, flagTypeName <$> (cmd !! name) = Some (flagTypeName v)) registered.

(** The progress reporter an event is addressed to. *)
Definition pbarOf (ev : Event) : option ProgressBar :=
  match ev with
  | EvPbarStart pbar | EvPbarStop pbar | EvSetPulseMsg pbar _ | EvSetMessage pbar _ => Some pbar
  | _ => None
  end.

(** The events that only a build makes: starting and stopping the
    reporter, resolving the upload configuration, checking access,
    building and transferring. *)
Definition buildOnlyEvent (ev : Event) : bool :=
  match ev with
  | EvPbarStart _ | EvPbarStop _ | EvUploaderFor _ _ | EvUploaderCheck _ _
  | EvBuildImage _ _ _ _ | EvUploadImage _ _ _ => true
  | _ => false
  end.

(** [failedWith ev e]: the call recorded as [ev] returned the error
    [e]. *)
Definition failedWith (ev : Event) (e : error) : Prop :=
  match ev with
  | EvProgressNew _ (inl e') | EvBlueprintLoad _ (inl e') | EvFindDistro _ _ (inl e')
  | EvGetOneImage _ _ _ _ (inl e') | EvGenerateManifest _ _ _ _ (inl e')
  | EvUploaderFor _ (_, Some e') | EvUploaderCheck _ (Some e')
  | EvBuildImage _ _ _ (Some e') | EvUploadImage _ _ (Some e') => e' = e
  | _ => False
  end.

(** Images and options of the sample environment. *)
Definition sampleImage (imgType arch : string) : Result :=
  {| Distro_Name := "fedora-41"; ImgType_Name := imgType;
     ImgType_Filename := "disk." +:+ imgType; Arch_Name := arch |}.

Definition sampleRepoOpts : repoOptions :=
  {| ro_DataDir := ""; ro_ExtraRepos := []; ro_ForceRepos := [] |}.

Definition sampleManifestOpts : manifestOptions :=
  {| mo_OutputDir := ""; mo_BlueprintPath := ""; mo_Ostree := None;
     mo_RpmDownloader := RpmDownloaderLibrepo; mo_WithSBOM := false; mo_ForceRepos := [] |}.

Definition sampleUploader : Uploader := UploaderHandle "us-east-1" "mybucket" "img".

(** A sample environment in which the build engine fails, and one in
    which the cloud refuses access. *)
Definition failingBuildEnv : Env := {|
  host_arch := host_arch sampleEnv;
  progress_New := progress_New sampleEnv;
  blueprintload_Load := blueprintload_Load sampleEnv;
  findDistro := findDistro sampleEnv;
  getOneImage := getOneImage sampleEnv;
  generateManifest := generateManifest sampleEnv;
  uploaderFor := uploaderFor sampleEnv;
  uploaderCheckWithProgress := uploaderCheckWithProgress sampleEnv;
  buildImage := fun _ _ _ _ => Some (Errorf "running osbuild failed: %s" ["exit status 1"]);
  uploadImageWithProgress := uploadImageWithProgress sampleEnv;
  filepath_Join := filepath_Join sampleEnv
|}.

Definition noAccessEnv : Env := {|
  host_arch := host_arch sampleEnv;
  progress_New := progress_New sampleEnv;
  blueprintload_Load := blueprintload_Load sampleEnv;
  findDistro := findDistro sampleEnv;
  getOneImage := getOneImage sampleEnv;
  generateManifest := generateManifest sampleEnv;
  uploaderFor := uploaderFor sampleEnv;
  uploaderCheckWithProgress := fun _ _ => Some (Errorf "cannot access bucket %q" ["mybucket"]);
  buildImage := buildImage sampleEnv;
  uploadImageWithProgress := uploadImageWithProgress sampleEnv;
  filepath_Join := filepath_Join sampleEnv
|}.

(** An environment whose resolver fails for a reason of its own. *)
Definition brokenResolverEnv : Env := {|
  host_arch := host_arch sampleEnv;
  progress_New := progress_New sampleEnv;
  blueprintload_Load := blueprintload_Load sampleEnv;
  findDistro := findDistro sampleEnv;
  getOneImage := getOneImage sampleEnv;
  generateManifest := generateManifest sampleEnv;
  uploaderFor := fun _ _ => (None, Some (Errorf "cannot load credentials" []));
  uploaderCheckWithProgress := uploaderCheckWithProgress sampleEnv;
  buildImage := buildImage sampleEnv;
  uploadImageWithProgress := uploadImageWithProgress sampleEnv;
  filepath_Join := filepath_Join sampleEnv
|}.

(** [build qcow2 --blueprint missing.toml] and [build qcow2 --output-dir out] *)
Definition buildMissingBlueprint : gmap string FlagValue :=
  <["blueprint" := FString "missing.toml"]> buildFlags.
Definition buildAmiUploadOutputDir : gmap string FlagValue :=
  <["output-dir" := FString "out"]> buildAmiUpload.

(** ** Proof automation

    A run is followed call by call: the outcome of the next call is the
    scrutinee at the head of the run, and each failing outcome ends the
    run. *)
#[global] Arguments GetString : simpl never.
#[global] Arguments GetBool : simpl never.
#[global] Arguments GetStringArray : simpl never.
#[global] Arguments ostreeImageOptions : simpl never.
#[global] Arguments index0 : simpl never.
#[global] Arguments buildArchChecker : simpl never.
#[global] Arguments outputNameFor : simpl never.
#[global] Arguments String.append : simpl never.

Ltac head_destruct x :=
  lazymatch x with
  | match ?y with _ => _ end => head_destruct y
  | (match ?y with _ => _ end) _ => head_destruct y
  | _ => destruct x eqn:?
  end.

Ltac run_step H :=
  simpl in H;
  lazymatch type of H with
  | match ?x with _ => _ end = _ => head_destruct x
  end.

Ltac unfold_M H :=
  unfold cmdBuild, cmdManifest, cmdManifestWrapper, progressFromCmd,
    defer, bind, lift, call, callE, callP, emit, ret, fail in H.

Ltac run_cases H := unfold_M H; repeat run_step H; simpl in H; simplify_eq.

(** Name the trace and the result of a run, and follow it. *)
Ltac follow m :=
  unfold trace, result;
  let H := fresh "Hrun" in
  destruct (m []) as [? ?] eqn:H; simpl fst; simpl snd; run_cases H.

(** Membership in a trace that is known event by event. *)
Ltac in_trace :=
  simpl in *;
  repeat match goal with
  | H : _ ∨ _ |- _ => destruct H as [H | H]
  | H : False |- _ => destruct H
  | H : @eq Event _ _ |- _ => first [discriminate H | injection H as ?; subst]
  | H : @eq Op _ _ |- _ => discriminate H
  end.

Lemma buildArchChecker_Some env archStr err :
  buildArchChecker env archStr = Some err ->
  archStr ≠ host_arch env
  ∧ err = Errorf "cannot build for arch %q from %q" [archStr; host_arch env].
Proof.
  unfold buildArchChecker. case_bool_decide; [| done].
  intros Herr. split; [done | congruence].
Qed.

Lemma buildArchChecker_None env archStr :
  buildArchChecker env archStr = None -> archStr = host_arch env.
Proof.
  unfold buildArchChecker. case_bool_decide as Hne; [done |].
  intros _. destruct (decide (archStr = host_arch env)) as [Heq | Hdiff]; [done | by destruct Hne].
Qed.

(** ** The model on concrete command lines *)

Example build_ami_with_upload_ops :
  ops (trace (cmdBuild sampleEnv buildAmiUpload ["ami"]))
  = [OpManifest; OpAccessCheck; OpBuild; OpTransfer]
  ∧ result (cmdBuild sampleEnv buildAmiUpload ["ami"]) = inr tt.
Proof. split; vm_compute; reflexivity. Qed.

Example build_qcow2_ops :
  ops (trace (cmdBuild sampleEnv buildFlags ["qcow2"])) = [OpManifest; OpBuild]
  ∧ result (cmdBuild sampleEnv buildFlags ["qcow2"]) = inr tt.
Proof. split; vm_compute; reflexivity. Qed.

Example build_unknown_image_type :
  ops (trace (cmdBuild sampleEnv buildFlags ["no-such-type"])) = []
  ∧ result (cmdBuild sampleEnv buildFlags ["no-such-type"])
    = inl (Errorf "cannot find image for: distro:%q type:%q arch:%q"
             ["fedora-41"; "no-such-type"; "x86_64"]).
Proof. split; vm_compute; reflexivity. Qed.

Example build_stops_reporter_last :
  last (trace (cmdBuild sampleEnv buildAmiUpload ["ami"])) = Some (EvPbarStop (ProgressBarHandle 0)).
Proof. vm_compute. reflexivity. Qed.

Example manifest_flags_lack_cache :
  GetString manifestFlags "cache" = flagNotDefined "cache".
Proof. vm_compute. reflexivity. Qed.

Example ostree_options_absent :
  ostreeImageOptions buildFlags = inr None.
Proof. vm_compute. reflexivity. Qed.

Example ostree_options_present :
  ostreeImageOptions (<["ostree-url" := FString "https://example.org/repo"]> buildFlags)
  = inr (Some {| ImageRef := ""; ParentRef := ""; URL := "https://example.org/repo" |}).
Proof. vm_compute. reflexivity. Qed.

(** ** The order of the pipeline *)

(** C1, as the code has it: in every build invocation that reaches the
    upload phase (the access check or the transfer), the operations come
    in the order manifest generation, upload access check, build
    execution, transfer, as far as the run gets; build execution never
    precedes the access check, and a run that transfers the image has
    gone through all four, in this order. *)
Theorem upload_phase_order env cmd args :
  In OpAccessCheck (ops (trace (cmdBuild env cmd args)))
  ∨ In OpTransfer (ops (trace (cmdBuild env cmd args))) ->
  ops (trace (cmdBuild env cmd args)) `prefix_of` [OpManifest; OpAccessCheck; OpBuild; OpTransfer]
  ∧ before OpBuild OpAccessCheck (ops (trace (cmdBuild env cmd args))) = false
  ∧ (In OpTransfer (ops (trace (cmdBuild env cmd args))) ->
     ops (trace (cmdBuild env cmd args)) = [OpManifest; OpAccessCheck; OpBuild; OpTransfer]
     ∧ before OpAccessCheck OpBuild (ops (trace (cmdBuild env cmd args))) = true).
Proof.
  follow (cmdBuild env cmd args); intros Hin; in_trace;
    (split_and!; [by eexists | done | intros Htransfer; in_trace; done]).
Qed.

Lemma upload_phase_order_witness :
  ops (trace (cmdBuild sampleEnv buildAmiUpload ["ami"]))
  = [OpManifest; OpAccessCheck; OpBuild; OpTransfer].
Proof.
  assert (Hin : In OpTransfer (ops (trace (cmdBuild sampleEnv buildAmiUpload ["ami"])))).
  { vm_compute. intuition. }
  destruct (upload_phase_order sampleEnv buildAmiUpload ["ami"] (or_intror Hin))
    as (_ & _ & Horder).
  apply Horder, Hin.
Defined.

(** C1, as the specification states it, fails: the run of
    [build ami --aws-ami-name img --aws-bucket mybucket --aws-region us-east-1]
    transfers the image, and its operations are not in the order manifest
    generation, build execution, access check, transfer; build execution
    does not precede the access check. *)
Lemma build_does_not_precede_access_check :
  In OpTransfer (ops (trace (cmdBuild sampleEnv buildAmiUpload ["ami"])))
  ∧ ops (trace (cmdBuild sampleEnv buildAmiUpload ["ami"]))
    ≠ [OpManifest; OpBuild; OpAccessCheck; OpTransfer]
  ∧ before OpBuild OpAccessCheck (ops (trace (cmdBuild sampleEnv buildAmiUpload ["ami"])))
    = false.
Proof.
  split; [vm_compute; intuition | split; [vm_compute; discriminate | vm_compute; reflexivity]].
Qed.

(** ** Partial upload configuration *)

(** The resolver of the specification reports a partial configuration
    exactly as [cmdBuild] tests it: for an image type that can be
    uploaded, with some but not all of the upload flags supplied, its
    error is a [MissingUploadConfigError] that is not "everything
    missing". *)
Lemma uploaderFor_spec_partial supportsUpload cmd typeOrCloud amiName bucketName region :
  supportsUpload typeOrCloud = true ->
  GetString cmd "aws-ami-name" = inr amiName ->
  GetString cmd "aws-bucket" = inr bucketName ->
  GetString cmd "aws-region" = inr region ->
  existsb (flagSupplied cmd) uploadFlagNames = true ->
  forallb (flagSupplied cmd) uploadFlagNames = false ->
  ∃ missing,
    uploaderFor_spec supportsUpload cmd typeOrCloud
    = (None, Some (MissingUploadConfigError missing false)).
Proof.
  intros Hsup Hami Hbucket Hregion.
  unfold uploaderFor_spec, uploadFlagNames, flagSupplied. simpl existsb. simpl forallb.
  rewrite Hsup, !filter_cons, filter_nil, Hami, Hbucket, Hregion. simpl.
  destruct (bool_decide (amiName = "")), (bool_decide (bucketName = "")),
    (bool_decide (region = "")); simpl; intros Hex Hall; try discriminate;
    eexists; reflexivity.
Qed.

(** C2: when the resolver reports a missing-configuration error that is
    not "everything missing", the build command returns the
    partial-upload-configuration error around it, and the trace holds the
    manifest generation only: the build engine is never invoked, nor the
    upload client. *)
Theorem partial_upload_config_fails_before_build env cmd args typ uploader err missing :
  In (EvUploaderFor typ (uploader, Some err)) (trace (cmdBuild env cmd args)) ->
  errors_As_MissingUploadConfigError err = Some (missing, false) ->
  result (cmdBuild env cmd args) = inl (Wrapf "partial upload config provided: %w" err)
  ∧ ops (trace (cmdBuild env cmd args)) = [OpManifest]
  ∧ ∀ img mf opts r, ¬ In (EvBuildImage img mf opts r) (trace (cmdBuild env cmd args)).
Proof.
  follow (cmdBuild env cmd args); intros Hin Has; in_trace;
    try (rewrite Has in *; simplify_eq/=);
    try (split_and!; [done .. | intros; intros ?; in_trace]).
Qed.

Lemma partial_upload_config_fails_before_build_witness :
  result (cmdBuild sampleEnv buildAmiBucketOnly ["ami"])
  = inl (Wrapf "partial upload config provided: %w"
           (MissingUploadConfigError ["aws-ami-name"; "aws-region"] false)).
Proof.
  apply (partial_upload_config_fails_before_build sampleEnv buildAmiBucketOnly ["ami"]
    "ami" None (MissingUploadConfigError ["aws-ami-name"; "aws-region"] false)
    ["aws-ami-name"; "aws-region"]).
  - vm_compute. intuition.
  - reflexivity.
Defined.

(** ** The architecture check *)

(** C3, as the code has it: when the image resolved for a build has an
    architecture other than the host's, the build command returns the
    architecture-mismatch error right after the resolution: the manifest
    generator is never invoked, nor the build engine or the upload
    client. *)
Theorem arch_mismatch_fails_before_manifest env cmd args distro imgType arch repoOpts img :
  In (EvGetOneImage distro imgType arch repoOpts (inr img)) (trace (cmdBuild env cmd args)) ->
  Arch_Name img ≠ host_arch env ->
  result (cmdBuild env cmd args)
  = inl (Errorf "cannot build for arch %q from %q" [Arch_Name img; host_arch env])
  ∧ ops (trace (cmdBuild env cmd args)) = []
  ∧ ∀ dataDir extraRepos img' opts r,
      ¬ In (EvGenerateManifest dataDir extraRepos img' opts r) (trace (cmdBuild env cmd args)).
Proof.
  follow (cmdBuild env cmd args); intros Hin Hne; in_trace;
    repeat match goal with
    | H : buildArchChecker _ _ = Some _ |- _ => apply buildArchChecker_Some in H as [_ ->]
    | H : buildArchChecker _ _ = None |- _ => apply buildArchChecker_None in H; congruence
    end;
    (split_and!; [done .. | intros; intros ?; in_trace]).
Qed.

Lemma arch_mismatch_fails_before_manifest_witness :
  result (cmdBuild sampleEnv buildCrossArch ["qcow2"])
  = inl (Errorf "cannot build for arch %q from %q" ["aarch64"; "x86_64"]).
Proof.
  apply (arch_mismatch_fails_before_manifest sampleEnv buildCrossArch ["qcow2"]
    "fedora-41" "qcow2" "aarch64"
    {| ro_DataDir := ""; ro_ExtraRepos := []; ro_ForceRepos := [] |}
    {| Distro_Name := "fedora-41"; ImgType_Name := "qcow2";
       ImgType_Filename := "disk.qcow2"; Arch_Name := "aarch64" |}).
  - vm_compute. intuition.
  - vm_compute. discriminate.
Defined.

(** C3, as the specification states it, fails: [build qcow2 --arch aarch64]
    on an x86_64 host resolves an aarch64 image and returns the
    architecture-mismatch error, but no manifest generation has succeeded
    before: the manifest generator was not invoked at all. *)
Lemma arch_mismatch_without_manifest :
  In (EvGetOneImage "fedora-41" "qcow2" "aarch64"
        {| ro_DataDir := ""; ro_ExtraRepos := []; ro_ForceRepos := [] |}
        (inr {| Distro_Name := "fedora-41"; ImgType_Name := "qcow2";
                ImgType_Filename := "disk.qcow2"; Arch_Name := "aarch64" |}))
     (trace (cmdBuild sampleEnv buildCrossArch ["qcow2"]))
  ∧ host_arch sampleEnv = "x86_64"
  ∧ result (cmdBuild sampleEnv buildCrossArch ["qcow2"])
    = inl (Errorf "cannot build for arch %q from %q" ["aarch64"; "x86_64"])
  ∧ ¬ In OpManifest (ops (trace (cmdBuild sampleEnv buildCrossArch ["qcow2"]))).
Proof.
  split_and!; [vm_compute; intuition | reflexivity | reflexivity | vm_compute; intuition discriminate].
Qed.

(** C5: for every architecture string different from the host's, the
    check of the build path fails with the architecture-mismatch error,
    and so does a build invocation that resolves an image of that
    architecture; a manifest-only invocation that resolves the same
    image goes on to the manifest generator and returns what the
    generator returns: it never raises the architecture error. *)
Theorem arch_check_only_on_build_path env cmd args archStr :
  archStr ≠ host_arch env ->
  buildArchChecker env archStr
  = Some (Errorf "cannot build for arch %q from %q" [archStr; host_arch env])
  ∧ (∀ distro imgType arch repoOpts img,
       Arch_Name img = archStr ->
       In (EvGetOneImage distro imgType arch repoOpts (inr img)) (trace (cmdBuild env cmd args)) ->
       result (cmdBuild env cmd args)
       = inl (Errorf "cannot build for arch %q from %q" [archStr; host_arch env]))
  ∧ (∀ distro imgType arch repoOpts img,
       Arch_Name img = archStr ->
       In (EvGetOneImage distro imgType arch repoOpts (inr img)) (trace (cmdManifest env cmd args)) ->
       ∃ dataDir extraRepos opts r,
         In (EvGenerateManifest dataDir extraRepos img opts r) (trace (cmdManifest env cmd args))
         ∧ result (cmdManifest env cmd args) = match r with inl e => inl e | inr _ => inr tt end).
Proof.
  intros Hne. split_and!.
  - unfold buildArchChecker. by rewrite bool_decide_eq_true_2.
  - intros distro imgType arch repoOpts img <-.
    follow (cmdBuild env cmd args); intros Hin; in_trace;
      repeat match goal with
      | H : buildArchChecker _ _ = Some _ |- _ => apply buildArchChecker_Some in H as [_ ->]
      | H : buildArchChecker _ _ = None |- _ => apply buildArchChecker_None in H; congruence
      end; done.
  - intros distro imgType arch repoOpts img _.
    follow (cmdManifest env cmd args); intros Hin; in_trace;
      (do 4 eexists; split; [simpl; do 10 (try (left; reflexivity); right) | done]).
Qed.

Lemma arch_check_only_on_build_path_witness :
  result (cmdBuild sampleEnv buildCrossArch ["qcow2"])
  = inl (Errorf "cannot build for arch %q from %q" ["aarch64"; "x86_64"])
  ∧ result (cmdManifest sampleEnv manifestCrossArch ["qcow2"]) = inr tt.
Proof.
  pose (img := {| Distro_Name := "fedora-41"; ImgType_Name := "qcow2";
                  ImgType_Filename := "disk.qcow2"; Arch_Name := "aarch64" |}).
  pose (ro := {| ro_DataDir := ""; ro_ExtraRepos := []; ro_ForceRepos := [] |}).
  assert (Hne : "aarch64" ≠ host_arch sampleEnv) by (vm_compute; discriminate).
  split.
  - destruct (arch_check_only_on_build_path sampleEnv buildCrossArch ["qcow2"] "aarch64" Hne)
      as (_ & Hbuild & _).
    apply (Hbuild "fedora-41" "qcow2" "aarch64" ro img); [reflexivity | vm_compute; intuition].
  - destruct (arch_check_only_on_build_path sampleEnv manifestCrossArch ["qcow2"] "aarch64" Hne)
      as (_ & _ & Hmanifest).
    destruct (Hmanifest "fedora-41" "qcow2" "aarch64" ro img) as (dataDir & extraRepos & opts & r & Hin & Hres);
      [reflexivity | vm_compute; intuition |].
    rewrite Hres. vm_compute in Hin. destruct r; [| reflexivity].
    intuition discriminate.
Defined.

(** ** The manifest stage announces itself before it resolves the image *)

(** C4, as the code has it: in every run of the manifest stage that
    reaches the image selection, the pulse "Manifest generation step" and
    then the detail message are reported strictly before the image is
    resolved, and the message names the distribution and the image type
    that are handed to the selection (the effective distribution string
    and the image-type argument), not names taken from the resolved
    image. *)
Theorem manifest_stage_reports_before_resolving env pbar cmd args archChecker
    distro imgType arch repoOpts r :
  In (EvGetOneImage distro imgType arch repoOpts r)
     (trace (cmdManifestWrapper env pbar cmd args archChecker)) ->
  steps (trace (cmdManifestWrapper env pbar cmd args archChecker))
  = [StepPulse; StepDetail; StepResolve]
  ∧ In (EvSetPulseMsg pbar "Manifest generation step")
       (trace (cmdManifestWrapper env pbar cmd args archChecker))
  ∧ In (EvSetMessage pbar ("Building manifest for " +:+ distro +:+ "-" +:+ imgType))
       (trace (cmdManifestWrapper env pbar cmd args archChecker))
  ∧ index0 args = inr imgType.
Proof.
  follow (cmdManifestWrapper env pbar cmd args archChecker); intros Hin; in_trace;
    (split_and!; [done | simpl; tauto | simpl; tauto | done]).
Qed.

Lemma manifest_stage_reports_before_resolving_witness :
  steps (trace (cmdManifestWrapper sampleEnv (ProgressBarHandle 0) manifestFlags ["qcow2"] None))
  = [StepPulse; StepDetail; StepResolve].
Proof.
  assert (Hin : In (EvGetOneImage "fedora-41" "qcow2" "x86_64"
        {| ro_DataDir := ""; ro_ExtraRepos := []; ro_ForceRepos := [] |}
        (inr {| Distro_Name := "fedora-41"; ImgType_Name := "qcow2";
                ImgType_Filename := "disk.qcow2"; Arch_Name := "x86_64" |}))
     (trace (cmdManifestWrapper sampleEnv (ProgressBarHandle 0) manifestFlags ["qcow2"] None))).
  { vm_compute. intuition. }
  destruct (manifest_stage_reports_before_resolving _ _ _ _ _ _ _ _ _ _ Hin) as (Hsteps & _).
  exact Hsteps.
Defined.

(** C4, as the specification states it, fails: in the manifest stage of
    [manifest qcow2] the image is resolved, and the resolution is the
    last of the three steps, after the pulse and the detail message. *)
Lemma resolution_follows_progress_report :
  In (EvGetOneImage "fedora-41" "qcow2" "x86_64"
        {| ro_DataDir := ""; ro_ExtraRepos := []; ro_ForceRepos := [] |}
        (inr {| Distro_Name := "fedora-41"; ImgType_Name := "qcow2";
                ImgType_Filename := "disk.qcow2"; Arch_Name := "x86_64" |}))
     (trace (cmdManifestWrapper sampleEnv (ProgressBarHandle 0) manifestFlags ["qcow2"] None))
  ∧ steps (trace (cmdManifestWrapper sampleEnv (ProgressBarHandle 0) manifestFlags ["qcow2"] None))
    ≠ [StepResolve; StepPulse; StepDetail]
  ∧ steps (trace (cmdManifestWrapper sampleEnv (ProgressBarHandle 0) manifestFlags ["qcow2"] None))
    = [StepPulse; StepDetail; StepResolve].
Proof.
  split_and!; [vm_compute; intuition | vm_compute; discriminate | reflexivity].
Qed.

(** ** The default output directory *)

(** C6: when [--output-dir] holds the empty string, the build engine is
    called with the output directory [{distro}-{imageType}-{arch}] made
    from the names of the image it is called with, which is the image
    that the selection resolved. *)
Theorem default_output_dir env cmd args img mf opts r :
  GetString cmd "output-dir" = inr "" ->
  In (EvBuildImage img mf opts r) (trace (cmdBuild env cmd args)) ->
  OutputDir opts = Distro_Name img +:+ "-" +:+ ImgType_Name img +:+ "-" +:+ Arch_Name img
  ∧ OutputDir opts = outputNameFor img
  ∧ ∃ distro imgType arch repoOpts,
      In (EvGetOneImage distro imgType arch repoOpts (inr img)) (trace (cmdBuild env cmd args)).
Proof.
  intros Hout. follow (cmdBuild env cmd args); intros Hin; in_trace;
    (split_and!; [done | done | do 4 eexists; simpl; do 10 (try (left; reflexivity); right)]).
Qed.

Lemma default_output_dir_witness :
  ∃ opts,
    In (EvBuildImage
          {| Distro_Name := "centos-9"; ImgType_Name := "qcow2";
             ImgType_Filename := "disk.qcow2"; Arch_Name := "x86_64" |}
          [x7b; x7d] opts None)
       (trace (cmdBuild sampleEnv (<["distro" := FString "centos-9"]> buildFlags) ["qcow2"]))
    ∧ OutputDir opts = "centos-9-qcow2-x86_64".
Proof.
  exists {| OutputDir := "centos-9-qcow2-x86_64";
            StoreDir := "/var/cache/image-builder/store"; WriteManifest := false |}.
  assert (Hin : In (EvBuildImage
          {| Distro_Name := "centos-9"; ImgType_Name := "qcow2";
             ImgType_Filename := "disk.qcow2"; Arch_Name := "x86_64" |}
          [x7b; x7d]
          {| OutputDir := "centos-9-qcow2-x86_64";
             StoreDir := "/var/cache/image-builder/store"; WriteManifest := false |} None)
       (trace (cmdBuild sampleEnv (<["distro" := FString "centos-9"]> buildFlags) ["qcow2"]))).
  { vm_compute. intuition. }
  assert (Hout : GetString (<["distro" := FString "centos-9"]> buildFlags) "output-dir" = inr "").
  { vm_compute. reflexivity. }
  split; [exact Hin |].
  destruct (default_output_dir sampleEnv _ ["qcow2"] _ _ _ _ Hout Hin) as (Hdir & _ & _).
  rewrite Hdir. reflexivity.
Defined.

(** ** Builds without an upload *)







(** ** At most one upload, after a successful build *)

(** C8: a build invocation transfers the image at most once, and a
    transfer comes after a call of the build engine that returned without
    an error; a manifest-only invocation never transfers anything. *)
Theorem at_most_one_upload_after_build env cmd args :
  (length (filter (λ o, o = OpTransfer) (ops (trace (cmdBuild env cmd args)))) ≤ 1)%nat
  ∧ (∀ uploader imagePath r,
       In (EvUploadImage uploader imagePath r) (trace (cmdBuild env cmd args)) ->
       ∃ img mf opts pre post,
         trace (cmdBuild env cmd args) = pre ++ EvBuildImage img mf opts None :: post
         ∧ In (EvUploadImage uploader imagePath r) post)
  ∧ ¬ In OpTransfer (ops (trace (cmdManifest env cmd args))).
Proof.
  split_and!.
  - follow (cmdBuild env cmd args); vm_compute; lia.
  - follow (cmdBuild env cmd args); intros ??? Hin; in_trace;
      (do 3 eexists; eexists [_; _; _; _; _; _; _; _; _; _; _; _], _;
       split; [reflexivity | simpl; tauto]).
  - follow (cmdManifest env cmd args); intros ?; in_trace.
Qed.

Lemma at_most_one_upload_after_build_witness :
  ∃ img mf opts pre post,
    trace (cmdBuild sampleEnv buildAmiUpload ["ami"]) = pre ++ EvBuildImage img mf opts None :: post
    ∧ In (EvUploadImage (UploaderHandle "us-east-1" "mybucket" "img")
            "fedora-41-ami-x86_64/ami/disk.ami" None) post.
Proof.
  apply (at_most_one_upload_after_build sampleEnv buildAmiUpload ["ami"]).
  vm_compute. intuition.
Defined.

(** ** The kind of the progress reporter *)

(** C10: [progressFromCmd] creates exactly one progress reporter; its
    kind is "verbose" when [--progress] is "auto" and [--verbose] is set,
    and the value of [--progress] otherwise.  It is the only reporter a
    build invocation creates. *)
Theorem progress_kind env cmd progressType verbose :
  GetString cmd "progress" = inr progressType ->
  GetBool cmd "verbose" = inr verbose ->
  ∃ kind,
    progressFromCmd env cmd [] = ([EvProgressNew kind (progress_New env kind)], progress_New env kind)
    ∧ (progressType = "auto" ∧ verbose = true -> kind = "verbose")
    ∧ (¬ (progressType = "auto" ∧ verbose = true) -> kind = progressType)
    ∧ ∀ args kind' r, In (EvProgressNew kind' r) (trace (cmdBuild env cmd args)) -> kind' = kind.
Proof.
  intros Hprogress Hverbose.
  exists (if bool_decide (progressType = "auto") && verbose then "verbose" else progressType).
  split_and!.
  - unfold progressFromCmd, bind, lift, call. rewrite Hprogress, Hverbose. reflexivity.
  - intros [-> ->]. reflexivity.
  - intros Hnot. case_bool_decide; [| done]. destruct verbose; [| done]. by destruct Hnot.
  - intros args kind' r. follow (cmdBuild env cmd args); intros Hin; in_trace; congruence.
Qed.

Lemma progress_kind_witness :
  ∃ kind,
    progressFromCmd sampleEnv buildVerbose []
    = ([EvProgressNew kind (progress_New sampleEnv kind)], progress_New sampleEnv kind)
    ∧ kind = "verbose".
Proof.
  destruct (progress_kind sampleEnv buildVerbose "auto" true) as (kind & Hrun & Hverbose & _).
  - vm_compute. reflexivity.
  - vm_compute. reflexivity.
  - exists kind. split; [exact Hrun | apply Hverbose; split; reflexivity].
Defined.

(** * Further properties of the commands *)

(** ** OSTree options *)

(** X1: the OSTree options are absent exactly when the three flags
    [--ostree-ref], [--ostree-parent] and [--ostree-url] are all empty;
    as soon as one of them is set, the options hold the three values as
    they are, the empty ones included. *)
Theorem ostree_options_absent_iff_all_empty cmd imageRef parentRef url :
  GetString cmd "ostree-ref" = inr imageRef ->
  GetString cmd "ostree-parent" = inr parentRef ->
  GetString cmd "ostree-url" = inr url ->
  (ostreeImageOptions cmd = inr None ↔ imageRef = "" ∧ parentRef = "" ∧ url = "")
  ∧ (¬ (imageRef = "" ∧ parentRef = "" ∧ url = "") ->
     ostreeImageOptions cmd
     = inr (Some {| ImageRef := imageRef; ParentRef := parentRef; URL := url |})).
Proof.
  intros Href Hparent Hurl. unfold ostreeImageOptions. rewrite Href, Hparent, Hurl.
  repeat case_bool_decide; simpl; intuition congruence.
Qed.

Lemma ostree_options_absent_iff_all_empty_witness :
  ostreeImageOptions (<["ostree-parent" := FString "fedora/41/x86_64/iot"]> buildFlags)
  = inr (Some {| ImageRef := ""; ParentRef := "fedora/41/x86_64/iot"; URL := "" |}).
Proof.
  destruct (ostree_options_absent_iff_all_empty
              (<["ostree-parent" := FString "fedora/41/x86_64/iot"]> buildFlags)
              "" "fedora/41/x86_64/iot" "") as (_ & Hsome);
    [vm_compute; reflexivity .. |].
  apply Hsome. intros (_ & Hparent & _). discriminate Hparent.
Defined.

(** ** The progress reporter of a build *)

(** X2: a build that has started the progress reporter stops it as its
    last action, on every path, failures included. *)
Theorem build_stops_started_reporter env cmd args pbar :
  In (EvPbarStart pbar) (trace (cmdBuild env cmd args)) ->
  last (trace (cmdBuild env cmd args)) = Some (EvPbarStop pbar).
Proof.
  follow (cmdBuild env cmd args); intros Hin; in_trace; reflexivity.
Qed.

Lemma build_stops_started_reporter_witness :
  last (trace (cmdBuild failingBuildEnv buildFlags ["qcow2"])) = Some (EvPbarStop (ProgressBarHandle 0)).
Proof.
  apply build_stops_started_reporter. vm_compute. intuition.
Defined.



(** X4: every start, stop, pulse and message of a build is addressed to
    a reporter that [progress.New] returned in this run. *)
Theorem build_uses_one_reporter env cmd args ev pbar :
  In ev (trace (cmdBuild env cmd args)) ->
  pbarOf ev = Some pbar ->
  ∃ kind, In (EvProgressNew kind (inr pbar)) (trace (cmdBuild env cmd args)).
Proof.
  follow (cmdBuild env cmd args); intros Hin Hpbar; simpl in Hin;
    repeat (destruct Hin as [<- | Hin]; [simpl in Hpbar; try discriminate Hpbar;
            injection Hpbar as <-; eexists; left; reflexivity |]);
    destruct Hin.
Qed.

Lemma build_uses_one_reporter_witness :
  ∃ kind, In (EvProgressNew kind (inr (ProgressBarHandle 0)))
             (trace (cmdBuild sampleEnv buildAmiUpload ["ami"])).
Proof.
  apply (build_uses_one_reporter sampleEnv buildAmiUpload ["ami"]
           (EvSetPulseMsg (ProgressBarHandle 0) "Checking cloud access")).
  - vm_compute. intuition.
  - reflexivity.
Defined.

(** ** What the image selection is asked *)

(** X5: the manifest stage asks the selection for the host's
    architecture when [--arch] is empty, and for the value of [--arch]
    otherwise. *)
Theorem selection_gets_host_arch_by_default env pbar cmd args archChecker
    distro imgType arch repoOpts r archFlag :
  GetString cmd "arch" = inr archFlag ->
  In (EvGetOneImage distro imgType arch repoOpts r)
     (trace (cmdManifestWrapper env pbar cmd args archChecker)) ->
  (archFlag = "" -> arch = host_arch env) ∧ (archFlag ≠ "" -> arch = archFlag).
Proof.
  intros Harch. follow (cmdManifestWrapper env pbar cmd args archChecker);
    intros Hin; in_trace; case_bool_decide; done.
Qed.

Lemma selection_gets_host_arch_by_default_witness :
  In (EvGetOneImage "fedora-41" "qcow2" "x86_64" sampleRepoOpts (inr (sampleImage "qcow2" "x86_64")))
     (trace (cmdManifestWrapper sampleEnv (ProgressBarHandle 0) manifestFlags ["qcow2"] None))
  ∧ "x86_64" = host_arch sampleEnv.
Proof.
  assert (Hin : In (EvGetOneImage "fedora-41" "qcow2" "x86_64" sampleRepoOpts
                      (inr (sampleImage "qcow2" "x86_64")))
     (trace (cmdManifestWrapper sampleEnv (ProgressBarHandle 0) manifestFlags ["qcow2"] None))).
  { vm_compute. intuition. }
  assert (Harch : GetString manifestFlags "arch" = inr "") by (vm_compute; reflexivity).
  split; [exact Hin |].
  destruct (selection_gets_host_arch_by_default _ _ _ _ _ _ _ _ _ _ _ Harch Hin) as [Hhost _].
  apply Hhost. reflexivity.
Defined.

(** X6: the distribution handed to the selection is the one [findDistro]
    returned for the [--distro] flag and the distribution of the loaded
    blueprint, and the repository options are the values of [--datadir],
    [--extra-repo] and [--force-repo]. *)
Theorem selection_inputs_come_from_flags_and_blueprint env pbar cmd args archChecker
    distro imgType arch repoOpts r :
  In (EvGetOneImage distro imgType arch repoOpts r)
     (trace (cmdManifestWrapper env pbar cmd args archChecker)) ->
  ∃ distroFlag blueprintPath bp,
    GetString cmd "distro" = inr distroFlag
    ∧ GetString cmd "blueprint" = inr blueprintPath
    ∧ In (EvBlueprintLoad blueprintPath (inr bp))
         (trace (cmdManifestWrapper env pbar cmd args archChecker))
    ∧ In (EvFindDistro distroFlag (bp_Distro bp) (inr distro))
         (trace (cmdManifestWrapper env pbar cmd args archChecker))
    ∧ GetString cmd "datadir" = inr (ro_DataDir repoOpts)
    ∧ GetStringArray cmd "extra-repo" = inr (ro_ExtraRepos repoOpts)
    ∧ GetStringArray cmd "force-repo" = inr (ro_ForceRepos repoOpts).
Proof.
  follow (cmdManifestWrapper env pbar cmd args archChecker); intros Hin; in_trace;
    (do 3 eexists; split_and!; [done | done | simpl; tauto | simpl; tauto | done ..]).
Qed.

Lemma selection_inputs_come_from_flags_and_blueprint_witness :
  ∃ distroFlag blueprintPath bp,
    GetString (<["distro" := FString "centos-9"]> manifestFlags) "distro" = inr distroFlag
    ∧ GetString (<["distro" := FString "centos-9"]> manifestFlags) "blueprint" = inr blueprintPath
    ∧ In (EvBlueprintLoad blueprintPath (inr bp))
         (trace (cmdManifestWrapper sampleEnv (ProgressBarHandle 0)
                   (<["distro" := FString "centos-9"]> manifestFlags) ["qcow2"] None))
    ∧ In (EvFindDistro distroFlag (bp_Distro bp) (inr "centos-9"))
         (trace (cmdManifestWrapper sampleEnv (ProgressBarHandle 0)
                   (<["distro" := FString "centos-9"]> manifestFlags) ["qcow2"] None)).
Proof.
  assert (Hin : In (EvGetOneImage "centos-9" "qcow2" "x86_64" sampleRepoOpts
                      (inr {| Distro_Name := "centos-9"; ImgType_Name := "qcow2";
                              ImgType_Filename := "disk.qcow2"; Arch_Name := "x86_64" |}))
     (trace (cmdManifestWrapper sampleEnv (ProgressBarHandle 0)
               (<["distro" := FString "centos-9"]> manifestFlags) ["qcow2"] None))).
  { vm_compute. intuition. }
  destruct (selection_inputs_come_from_flags_and_blueprint _ _ _ _ _ _ _ _ _ _ Hin)
    as (distroFlag & blueprintPath & bp & Hd & Hb & Hload & Hfind & _).
  exists distroFlag, blueprintPath, bp. auto.
Defined.

(** ** The architecture check lets the host's architecture through *)

(** X7: when the image resolved for a build has the host's architecture,
    the architecture check passes and the manifest generator is called
    for that image. *)
Theorem host_arch_build_reaches_manifest env cmd args distro imgType arch repoOpts img :
  In (EvGetOneImage distro imgType arch repoOpts (inr img)) (trace (cmdBuild env cmd args)) ->
  Arch_Name img = host_arch env ->
  ∃ dataDir extraRepos opts r,
    In (EvGenerateManifest dataDir extraRepos img opts r) (trace (cmdBuild env cmd args)).
Proof.
  follow (cmdBuild env cmd args); intros Hin Harch; in_trace;
    try match goal with
    | H : buildArchChecker _ _ = Some _ |- _ => apply buildArchChecker_Some in H as [Hne _]; done
    end;
    (do 4 eexists; simpl; do 10 (try (left; reflexivity); right)).
Qed.

Lemma host_arch_build_reaches_manifest_witness :
  ∃ dataDir extraRepos opts r,
    In (EvGenerateManifest dataDir extraRepos (sampleImage "qcow2" "x86_64") opts r)
       (trace (cmdBuild sampleEnv buildFlags ["qcow2"])).
Proof.
  apply (host_arch_build_reaches_manifest sampleEnv buildFlags ["qcow2"]
           "fedora-41" "qcow2" "x86_64" sampleRepoOpts).
  - vm_compute. intuition.
  - reflexivity.
Defined.

(** ** What the build engine and the upload client are given *)

(** X8: the build engine is called with the manifest that the manifest
    generator wrote for the same image, with [--cache] as store directory
    and [--with-manifest] as the manifest-export switch. *)
Theorem build_engine_gets_generated_manifest env cmd args img mf opts r :
  In (EvBuildImage img mf opts r) (trace (cmdBuild env cmd args)) ->
  ∃ dataDir extraRepos manifestOpts cacheDir withManifest,
    In (EvGenerateManifest dataDir extraRepos img manifestOpts (inr mf))
       (trace (cmdBuild env cmd args))
    ∧ GetString cmd "cache" = inr cacheDir ∧ StoreDir opts = cacheDir
    ∧ GetBool cmd "with-manifest" = inr withManifest ∧ WriteManifest opts = withManifest.
Proof.
  follow (cmdBuild env cmd args); intros Hin; in_trace;
    (do 5 eexists; split_and!;
     [simpl; do 10 (try (left; reflexivity); right) | done ..]).
Qed.

Lemma build_engine_gets_generated_manifest_witness :
  ∃ dataDir extraRepos manifestOpts,
    In (EvGenerateManifest dataDir extraRepos (sampleImage "qcow2" "x86_64") manifestOpts
          (inr [x7b; x7d]))
       (trace (cmdBuild sampleEnv buildFlags ["qcow2"])).
Proof.
  destruct (build_engine_gets_generated_manifest sampleEnv buildFlags ["qcow2"]
              (sampleImage "qcow2" "x86_64") [x7b; x7d]
              {| OutputDir := "fedora-41-qcow2-x86_64";
                 StoreDir := "/var/cache/image-builder/store"; WriteManifest := false |} None)
    as (dataDir & extraRepos & manifestOpts & _ & _ & Hin & _).
  - vm_compute. intuition.
  - exists dataDir, extraRepos, manifestOpts. exact Hin.
Defined.

(** X9: the manifest generator always gets the value of [--output-dir]
    as given, even the empty one; the build engine gets it as given when
    it is not empty. *)
Theorem explicit_output_dir_is_kept env cmd args outputDir :
  GetString cmd "output-dir" = inr outputDir ->
  (∀ dataDir extraRepos img opts r,
     In (EvGenerateManifest dataDir extraRepos img opts r) (trace (cmdBuild env cmd args)) ->
     mo_OutputDir opts = outputDir)
  ∧ (outputDir ≠ "" ->
     ∀ img mf opts r,
       In (EvBuildImage img mf opts r) (trace (cmdBuild env cmd args)) ->
       OutputDir opts = outputDir).
Proof.
  intros Hout. split.
  - follow (cmdBuild env cmd args); intros ????? Hin; in_trace; done.
  - intros Hne. follow (cmdBuild env cmd args); intros ???? Hin; in_trace;
      case_bool_decide; done.
Qed.

Lemma explicit_output_dir_is_kept_witness :
  In (EvBuildImage (sampleImage "ami" "x86_64") [x7b; x7d]
        {| OutputDir := "out"; StoreDir := "/var/cache/image-builder/store";
           WriteManifest := false |} None)
     (trace (cmdBuild sampleEnv buildAmiUploadOutputDir ["ami"]))
  ∧ mo_OutputDir {| mo_OutputDir := "out"; mo_BlueprintPath := ""; mo_Ostree := None;
                    mo_RpmDownloader := RpmDownloaderLibrepo; mo_WithSBOM := false;
                    mo_ForceRepos := [] |} = "out".
Proof.
  assert (Hout : GetString buildAmiUploadOutputDir "output-dir" = inr "out")
    by (vm_compute; reflexivity).
  destruct (explicit_output_dir_is_kept sampleEnv buildAmiUploadOutputDir ["ami"] "out" Hout)
    as [Hmanifest Hbuild].
  split.
  - vm_compute. intuition.
  - apply (Hmanifest "" [] (sampleImage "ami" "x86_64") _ (inr [x7b; x7d])).
    vm_compute. intuition.
Defined.

(** X10: the path of the transferred image is
    [filepath.Join(outputDir, imageTypeName, filename)] for the output
    directory and the image of a call of the build engine that returned
    without an error. *)
Theorem uploaded_path_is_under_build_output_dir env cmd args uploader imagePath r :
  In (EvUploadImage uploader imagePath r) (trace (cmdBuild env cmd args)) ->
  ∃ img mf opts,
    In (EvBuildImage img mf opts None) (trace (cmdBuild env cmd args))
    ∧ imagePath = filepath_Join env [OutputDir opts; ImgType_Name img; ImgType_Filename img].
Proof.
  follow (cmdBuild env cmd args); intros Hin; in_trace;
    (do 3 eexists; split; [simpl; do 14 (try (left; reflexivity); right) | reflexivity]).
Qed.

Lemma uploaded_path_is_under_build_output_dir_witness :
  ∃ img mf opts,
    In (EvBuildImage img mf opts None) (trace (cmdBuild sampleEnv buildAmiUploadOutputDir ["ami"]))
    ∧ "out/ami/disk.ami"
      = filepath_Join sampleEnv [OutputDir opts; ImgType_Name img; ImgType_Filename img].
Proof.
  apply (uploaded_path_is_under_build_output_dir sampleEnv buildAmiUploadOutputDir ["ami"]
           sampleUploader "out/ami/disk.ami" None).
  vm_compute. intuition.
Defined.

(** X11: the image is transferred with the upload client that the
    resolver returned for the name of the resolved image type, and the
    access check of that client has succeeded. *)
Theorem transfer_uses_checked_uploader env cmd args uploader imagePath r :
  In (EvUploadImage uploader imagePath r) (trace (cmdBuild env cmd args)) ->
  In (EvUploaderCheck uploader None) (trace (cmdBuild env cmd args))
  ∧ ∃ typ err img distro imgType arch repoOpts,
      In (EvUploaderFor typ (Some uploader, err)) (trace (cmdBuild env cmd args))
      ∧ In (EvGetOneImage distro imgType arch repoOpts (inr img)) (trace (cmdBuild env cmd args))
      ∧ typ = ImgType_Name img.
Proof.
  follow (cmdBuild env cmd args); intros Hin; in_trace;
    (split; [simpl; tauto | do 7 eexists; split_and!; [simpl; tauto | simpl; tauto | reflexivity]]).
Qed.

Lemma transfer_uses_checked_uploader_witness :
  In (EvUploaderCheck sampleUploader None) (trace (cmdBuild sampleEnv buildAmiUpload ["ami"])).
Proof.
  apply (transfer_uses_checked_uploader sampleEnv buildAmiUpload ["ami"]
           sampleUploader "fedora-41-ami-x86_64/ami/disk.ami" None).
  vm_compute. intuition.
Defined.

(** ** Failures end the run *)

(** X12: when the access check fails, the build command returns its
    error as it is, and neither the build engine nor the transfer
    runs. *)
Theorem access_check_failure_stops_before_build env cmd args uploader e :
  In (EvUploaderCheck uploader (Some e)) (trace (cmdBuild env cmd args)) ->
  result (cmdBuild env cmd args) = inl e
  ∧ ops (trace (cmdBuild env cmd args)) = [OpManifest; OpAccessCheck].
Proof.
  follow (cmdBuild env cmd args); intros Hin; in_trace; done.
Qed.

Lemma access_check_failure_stops_before_build_witness :
  result (cmdBuild noAccessEnv buildAmiUpload ["ami"])
  = inl (Errorf "cannot access bucket %q" ["mybucket"]).
Proof.
  apply (access_check_failure_stops_before_build noAccessEnv buildAmiUpload ["ami"] sampleUploader).
  vm_compute. intuition.
Defined.

(** X13: when the build engine fails, the build command returns its
    error as it is and transfers nothing. *)
Theorem build_failure_prevents_transfer env cmd args img mf opts e :
  In (EvBuildImage img mf opts (Some e)) (trace (cmdBuild env cmd args)) ->
  result (cmdBuild env cmd args) = inl e
  ∧ ¬ In OpTransfer (ops (trace (cmdBuild env cmd args))).
Proof.
  follow (cmdBuild env cmd args); intros Hin; in_trace; (split; [done | intros ?; in_trace]).
Qed.

Lemma build_failure_prevents_transfer_witness :
  result (cmdBuild failingBuildEnv buildAmiUpload ["ami"])
  = inl (Errorf "running osbuild failed: %s" ["exit status 1"]).
Proof.
  apply (build_failure_prevents_transfer failingBuildEnv buildAmiUpload ["ami"]
           (sampleImage "ami" "x86_64") [x7b; x7d]
           {| OutputDir := "fedora-41-ami-x86_64";
              StoreDir := "/var/cache/image-builder/store"; WriteManifest := false |}).
  vm_compute. intuition.
Defined.

(** X14: when the blueprint cannot be loaded, the manifest stage returns
    the loader's error after that single call: no distribution is looked
    up, nothing is announced, no image is resolved. *)
Theorem blueprint_failure_stops_before_selection env pbar cmd args archChecker path e :
  In (EvBlueprintLoad path (inl e)) (trace (cmdManifestWrapper env pbar cmd args archChecker)) ->
  result (cmdManifestWrapper env pbar cmd args archChecker) = inl e
  ∧ trace (cmdManifestWrapper env pbar cmd args archChecker) = [EvBlueprintLoad path (inl e)].
Proof.
  follow (cmdManifestWrapper env pbar cmd args archChecker); intros Hin; in_trace; done.
Qed.

Lemma blueprint_failure_stops_before_selection_witness :
  result (cmdManifestWrapper sampleEnv (ProgressBarHandle 0) buildMissingBlueprint ["qcow2"] None)
  = inl (Errorf "open %s: no such file or directory" ["missing.toml"]).
Proof.
  apply (blueprint_failure_stops_before_selection sampleEnv (ProgressBarHandle 0)
           buildMissingBlueprint ["qcow2"] None "missing.toml").
  vm_compute. intuition.
Defined.

(** X15: without an argument the manifest stage never reaches the image
    selection nor its announcements, and it does not end well. *)
Theorem no_argument_no_selection env pbar cmd archChecker :
  (∀ distro imgType arch repoOpts r,
     ¬ In (EvGetOneImage distro imgType arch repoOpts r)
          (trace (cmdManifestWrapper env pbar cmd [] archChecker)))
  ∧ steps (trace (cmdManifestWrapper env pbar cmd [] archChecker)) = []
  ∧ ∃ e, result (cmdManifestWrapper env pbar cmd [] archChecker) = inl e.
Proof.
  split_and!.
  - intros distro imgType arch repoOpts r.
    follow (cmdManifestWrapper env pbar cmd [] archChecker); intros Hin; in_trace.
  - follow (cmdManifestWrapper env pbar cmd [] archChecker); reflexivity.
  - follow (cmdManifestWrapper env pbar cmd [] archChecker); by eexists.
Qed.

(** ** The outcomes of the upload configuration resolver *)

(** X16: when the resolver has returned an upload client and the build
    engine has returned without an error, the image is transferred with
    that client and the command returns what the transfer returns. *)
Theorem resolved_uploader_uploads_after_build env cmd args typ uploader err img mf opts :
  In (EvUploaderFor typ (Some uploader, err)) (trace (cmdBuild env cmd args)) ->
  In (EvBuildImage img mf opts None) (trace (cmdBuild env cmd args)) ->
  ∃ imagePath r,
    In (EvUploadImage uploader imagePath r) (trace (cmdBuild env cmd args))
    ∧ result (cmdBuild env cmd args) = status r.
Proof.
  follow (cmdBuild env cmd args); intros Hfor Hbuild; in_trace;
    (do 2 eexists; split; [simpl; do 15 (try (left; reflexivity); right) | done]).
Qed.

Lemma resolved_uploader_uploads_after_build_witness :
  ∃ imagePath r,
    In (EvUploadImage sampleUploader imagePath r) (trace (cmdBuild sampleEnv buildAmiUpload ["ami"]))
    ∧ result (cmdBuild sampleEnv buildAmiUpload ["ami"]) = status r.
Proof.
  apply (resolved_uploader_uploads_after_build sampleEnv buildAmiUpload ["ami"]
           "ami" sampleUploader None (sampleImage "ami" "x86_64") [x7b; x7d]
           {| OutputDir := "fedora-41-ami-x86_64";
              StoreDir := "/var/cache/image-builder/store"; WriteManifest := false |}).
  - vm_compute. intuition.
  - vm_compute. intuition.
Defined.

(** X17: a missing-configuration error with every field missing is not
    an error of the build: no upload client is called, the build engine
    runs and the command returns what it returns. *)
Theorem all_missing_config_is_soft env cmd args typ err missing :
  In (EvUploaderFor typ (None, Some err)) (trace (cmdBuild env cmd args)) ->
  errors_As_MissingUploadConfigError err = Some (missing, true) ->
  ¬ In OpAccessCheck (ops (trace (cmdBuild env cmd args)))
  ∧ ¬ In OpTransfer (ops (trace (cmdBuild env cmd args)))
  ∧ ∃ img mf buildOpts r,
      In (EvBuildImage img mf buildOpts r) (trace (cmdBuild env cmd args))
      ∧ result (cmdBuild env cmd args) = status r.
Proof.
  follow (cmdBuild env cmd args); intros Hin Hmissing; in_trace;
    rewrite ?Hmissing in *; simplify_eq/=;
    (split_and!; [intros ?; in_trace .. |]);
    (do 4 eexists; split; [simpl; do 12 (try (left; reflexivity); right) | done]).
Qed.

Lemma all_missing_config_is_soft_witness :
  ∃ img mf buildOpts r,
    In (EvBuildImage img mf buildOpts r) (trace (cmdBuild sampleEnv buildFlags ["ami"]))
    ∧ result (cmdBuild sampleEnv buildFlags ["ami"]) = status r.
Proof.
  apply (all_missing_config_is_soft sampleEnv buildFlags ["ami"] "ami"
           (MissingUploadConfigError uploadFlagNames true) uploadFlagNames).
  - vm_compute. intuition.
  - reflexivity.
Defined.

(** X18: an error of the resolver that holds neither a
    missing-configuration nor an unsupported-type error is returned as it
    is, before the build engine runs. *)
Theorem other_resolver_error_is_fatal env cmd args typ uploader err :
  In (EvUploaderFor typ (uploader, Some err)) (trace (cmdBuild env cmd args)) ->
  errors_As_MissingUploadConfigError err = None ->
  errors_As_UploadTypeUnsupportedError err = None ->
  result (cmdBuild env cmd args) = inl err
  ∧ ops (trace (cmdBuild env cmd args)) = [OpManifest].
Proof.
  follow (cmdBuild env cmd args); intros Hin Hmissing Hunsupported; in_trace;
    rewrite ?Hmissing, ?Hunsupported in *; simplify_eq/=; done.
Qed.

Lemma other_resolver_error_is_fatal_witness :
  result (cmdBuild brokenResolverEnv buildFlags ["qcow2"])
  = inl (Errorf "cannot load credentials" []).
Proof.
  apply (other_resolver_error_is_fatal brokenResolverEnv buildFlags ["qcow2"] "qcow2" None).
  - vm_compute. intuition.
  - reflexivity.
  - reflexivity.
Defined.

(** ** What a manifest-only invocation never does *)

(** X19: a manifest-only invocation never starts or stops the progress
    reporter, never resolves an upload configuration, checks access,
    builds or transfers; of the four operations it performs at most the
    manifest generation. *)
Theorem manifest_makes_no_build_event env cmd args :
  Forall (λ ev, buildOnlyEvent ev = false) (trace (cmdManifest env cmd args))
  ∧ (ops (trace (cmdManifest env cmd args)) = []
     ∨ ops (trace (cmdManifest env cmd args)) = [OpManifest]).
Proof.
  split.
  - follow (cmdManifest env cmd args); repeat constructor.
  - follow (cmdManifest env cmd args); simpl; tauto.
Qed.

(** ** Stages are announced before they run *)

(** X20: the access check comes right after the pulse "Checking cloud
    access", and the build engine is called right after the pulse "Image
    building step". *)
Theorem operations_follow_their_pulse env cmd args :
  (∀ uploader r,
     In (EvUploaderCheck uploader r) (trace (cmdBuild env cmd args)) ->
     ∃ pre post pbar,
       trace (cmdBuild env cmd args)
       = pre ++ [EvSetPulseMsg pbar "Checking cloud access"; EvUploaderCheck uploader r] ++ post)
  ∧ (∀ img mf opts r,
       In (EvBuildImage img mf opts r) (trace (cmdBuild env cmd args)) ->
       ∃ pre post pbar,
         trace (cmdBuild env cmd args)
         = pre ++ [EvSetPulseMsg pbar "Image building step"; EvBuildImage img mf opts r] ++ post).
Proof.
  split.
  - follow (cmdBuild env cmd args); intros ?? Hin; in_trace;
      (eexists [_; _; _; _; _; _; _; _; _], _, _; reflexivity).
  - follow (cmdBuild env cmd args); intros ???? Hin; in_trace;
      first [ eexists [_; _; _; _; _; _; _; _; _; _; _], _, _; reflexivity
            | eexists [_; _; _; _; _; _; _; _; _], _, _; reflexivity ].
Qed.

Lemma operations_follow_their_pulse_witness :
  ∃ pre post pbar,
    trace (cmdBuild sampleEnv buildAmiUpload ["ami"])
    = pre ++ [EvSetPulseMsg pbar "Checking cloud access"; EvUploaderCheck sampleUploader None]
          ++ post.
Proof.
  destruct (operations_follow_their_pulse sampleEnv buildAmiUpload ["ami"]) as [Hcheck _].
  apply Hcheck. vm_compute. intuition.
Defined.

(** ** Registered flags are found *)

Lemma sameShape_GetString registered cmd name s0 :
  sameShape registered cmd -> registered !! name = Some (FString s0) ->
  ∃ s, GetString cmd name = inr s.
Proof.
  intros Hshape Hreg. specialize (Hshape name _ Hreg). simpl in Hshape.
  unfold GetString. destruct (cmd !! name) as [[] |]; simplify_eq/=; eauto.
Qed.

Lemma sameShape_GetBool registered cmd name b0 :
  sameShape registered cmd -> registered !! name = Some (FBool b0) ->
  ∃ b, GetBool cmd name = inr b.
Proof.
  intros Hshape Hreg. specialize (Hshape name _ Hreg). simpl in Hshape.
  unfold GetBool. destruct (cmd !! name) as [[] |]; simplify_eq/=; eauto.
Qed.

Lemma sameShape_GetStringArray registered cmd name l0 :
  sameShape registered cmd -> registered !! name = Some (FStringArray l0) ->
  ∃ l, GetStringArray cmd name = inr l.
Proof.
  intros Hshape Hreg. specialize (Hshape name _ Hreg). simpl in Hshape.
  unfold GetStringArray. destruct (cmd !! name) as [[] |]; simplify_eq/=; eauto.
Qed.

Lemma sameShape_ostreeImageOptions registered cmd r p u :
  sameShape registered cmd ->
  registered !! "ostree-ref" = Some (FString r) ->
  registered !! "ostree-parent" = Some (FString p) ->
  registered !! "ostree-url" = Some (FString u) ->
  ∃ o, ostreeImageOptions cmd = inr o.
Proof.
  intros Hshape Hr Hp Hu.
  destruct (sameShape_GetString _ _ _ _ Hshape Hr) as [? Hr'].
  destruct (sameShape_GetString _ _ _ _ Hshape Hp) as [? Hp'].
  destruct (sameShape_GetString _ _ _ _ Hshape Hu) as [? Hu'].
  unfold ostreeImageOptions. rewrite Hr', Hp', Hu'. case_match; eauto.
Qed.

(** Close a run that ended in the failure of a lookup of a registered
    flag. *)
Ltac registered_flag Hshape :=
  lazymatch type of Hshape with
  | sameShape ?reg _ =>
      match goal with
      | H : GetString _ ?n = inl _ |- _ =>
          let v := eval vm_compute in (reg !! n) in
          lazymatch v with
          | Some (FString ?s0) =>
              let Hreg := fresh in
              assert (Hreg : reg !! n = Some (FString s0)) by (vm_compute; reflexivity);
              destruct (sameShape_GetString _ _ _ _ Hshape Hreg) as [? Hs];
              rewrite Hs in H; discriminate H
          end
      | H : GetBool _ ?n = inl _ |- _ =>
          let v := eval vm_compute in (reg !! n) in
          lazymatch v with
          | Some (FBool ?b0) =>
              let Hreg := fresh in
              assert (Hreg : reg !! n = Some (FBool b0)) by (vm_compute; reflexivity);
              destruct (sameShape_GetBool _ _ _ _ Hshape Hreg) as [? Hs];
              rewrite Hs in H; discriminate H
          end
      | H : GetStringArray _ ?n = inl _ |- _ =>
          let v := eval vm_compute in (reg !! n) in
          lazymatch v with
          | Some (FStringArray ?l0) =>
              let Hreg := fresh in
              assert (Hreg : reg !! n = Some (FStringArray l0)) by (vm_compute; reflexivity);
              destruct (sameShape_GetStringArray _ _ _ _ Hshape Hreg) as [? Hs];
              rewrite Hs in H; discriminate H
          end
      | H : ostreeImageOptions _ = inl _ |- _ =>
          destruct (sameShape_ostreeImageOptions reg _ "" "" "" Hshape) as [? Hs];
          [vm_compute; reflexivity .. | rewrite Hs in H; discriminate H]
      end
  end.

(** Find the failed call in a trace that is known event by event. *)
Ltac failed_call :=
  repeat first [ apply Exists_cons_hd; simpl; reflexivity | apply Exists_cons_tl ].

(** X21: with flags of the shape that [run] registers for [build] and
    at least one argument, no flag lookup of a build fails: an error of
    the build command is the error of a call recorded in the trace, the
    architecture mismatch, or the partial-configuration wrapper around
    the resolver's error. *)
Theorem build_errors_come_from_calls env cmd args e :
  sameShape buildFlags cmd ->
  args ≠ [] ->
  result (cmdBuild env cmd args) = inl e ->
  Exists (λ ev, failedWith ev e) (trace (cmdBuild env cmd args))
  ∨ (∃ archStr, e = Errorf "cannot build for arch %q from %q" [archStr; host_arch env])
  ∨ (∃ cause, e = Wrapf "partial upload config provided: %w" cause
              ∧ Exists (λ ev, failedWith ev cause) (trace (cmdBuild env cmd args))).
Proof.
  intros Hshape Hargs.
  follow (cmdBuild env cmd args); intros He; simplify_eq;
    try registered_flag Hshape;
    try (destruct args; [done | discriminate]);
    try match goal with
    | H : buildArchChecker _ _ = Some _ |- _ =>
        apply buildArchChecker_Some in H as [_ ->]; right; left; by eexists
    end;
    first [ left; failed_call; fail
          | right; right; eexists; split; [reflexivity | failed_call] ].
Qed.

Lemma sampleShape_buildAmiBucketOnly : sameShape buildFlags buildAmiBucketOnly.
Proof. apply (bool_decide_unpack _). vm_compute. exact I. Qed.

Lemma build_errors_come_from_calls_witness :
  ∃ cause,
    Wrapf "partial upload config provided: %w"
      (MissingUploadConfigError ["aws-ami-name"; "aws-region"] false)
    = Wrapf "partial upload config provided: %w" cause
    ∧ Exists (λ ev, failedWith ev cause) (trace (cmdBuild sampleEnv buildAmiBucketOnly ["ami"])).
Proof.
  destruct (build_errors_come_from_calls sampleEnv buildAmiBucketOnly ["ami"]
              (Wrapf "partial upload config provided: %w"
                 (MissingUploadConfigError ["aws-ami-name"; "aws-region"] false))
              sampleShape_buildAmiBucketOnly) as [Hcall | [[archStr Harch] | Hpartial]].
  - discriminate.
  - vm_compute. reflexivity.
  - exfalso. vm_compute in Hcall. repeat (inversion_clear Hcall as [? ? Hhd | ? ? Htl];
      [simpl in Hhd; try discriminate Hhd; try destruct Hhd | rename Htl into Hcall]).
    inversion Hcall.
  - discriminate Harch.
  - exact Hpartial.
Defined.

(** X22: with flags of the shape that [run] registers for [manifest] and
    at least one argument, an error of the manifest command is always the
    error of a call recorded in its trace; the command has no error of
    its own, in particular no architecture mismatch. *)
Theorem manifest_errors_come_from_calls env cmd args e :
  sameShape manifestFlags cmd ->
  args ≠ [] ->
  result (cmdManifest env cmd args) = inl e ->
  Exists (λ ev, failedWith ev e) (trace (cmdManifest env cmd args)).
Proof.
  intros Hshape Hargs.
  follow (cmdManifest env cmd args); intros He; simplify_eq;
    try registered_flag Hshape;
    try (destruct args; [done | discriminate]);
    failed_call.
Qed.

Lemma sampleShape_manifestCrossArch : sameShape manifestFlags manifestCrossArch.
Proof. apply (bool_decide_unpack _). vm_compute. exact I. Qed.

Lemma manifest_errors_come_from_calls_witness :
  Exists (λ ev, failedWith ev
            (Errorf "cannot find image for: distro:%q type:%q arch:%q"
               ["fedora-41"; "no-such-type"; "aarch64"]))
    (trace (cmdManifest sampleEnv manifestCrossArch ["no-such-type"])).
Proof.
  apply (manifest_errors_come_from_calls sampleEnv manifestCrossArch ["no-such-type"]).
  - exact sampleShape_manifestCrossArch.
  - discriminate.
  - vm_compute. reflexivity.
Defined.

(** ** describe-image and list-images *)

(** X23: [describe-image] makes one call, the image selection, with the
    [--distro] flag as it is (no blueprint, no [findDistro]), the first
    argument as image type, and repository options that hold the data
    directory only; it returns the selection's error, or what
    [describeImage] returns for the resolved image. *)
Theorem describe_image_selects_from_flags_only env describeImage cmd args
    distro imgType arch repoOpts r :
  In (EvGetOneImage distro imgType arch repoOpts r)
     (trace (cmdDescribeImg env describeImage cmd args)) ->
  trace (cmdDescribeImg env describeImage cmd args)
  = [EvGetOneImage distro imgType arch repoOpts r]
  ∧ GetString cmd "distro" = inr distro
  ∧ index0 args = inr imgType
  ∧ GetString cmd "datadir" = inr (ro_DataDir repoOpts)
  ∧ ro_ExtraRepos repoOpts = [] ∧ ro_ForceRepos repoOpts = []
  ∧ result (cmdDescribeImg env describeImage cmd args)
    = match r with inl e => inl e | inr res => status (describeImage res) end.
Proof.
  unfold trace, result.
  destruct (cmdDescribeImg env describeImage cmd args []) as [t res] eqn:Hrun.
  unfold cmdDescribeImg in Hrun. run_cases Hrun; intros Hin; in_trace; done.
Qed.

Lemma describe_image_selects_from_flags_only_witness :
  trace (cmdDescribeImg sampleEnv (fun _ => None) (<["distro" := FString "centos-9"]> describeImgFlags)
           ["ami"])
  = [EvGetOneImage "centos-9" "ami" "x86_64" sampleRepoOpts
       (inr {| Distro_Name := "centos-9"; ImgType_Name := "ami";
               ImgType_Filename := "disk.ami"; Arch_Name := "x86_64" |})].
Proof.
  apply describe_image_selects_from_flags_only. vm_compute. intuition.
Defined.

(** X24: with flags of the shape that [run] registers for
    [list-images], the command finds its four flags and returns what
    [listImages] returns for the data directory, the extra repositories,
    the output format and the filters, in this order. *)
Theorem list_images_finds_its_flags listImages cmd :
  sameShape listImagesFlags cmd ->
  ∃ dataDir extraRepos output filter,
    GetString cmd "datadir" = inr dataDir
    ∧ GetStringArray cmd "extra-repo" = inr extraRepos
    ∧ GetString cmd "output" = inr output
    ∧ GetStringArray cmd "filter" = inr filter
    ∧ cmdListImages listImages cmd = status (listImages dataDir extraRepos output filter).
Proof.
  intros Hshape.
  destruct (sameShape_GetString listImagesFlags cmd "datadir" "" Hshape) as [dataDir Hd];
    [vm_compute; reflexivity |].
  destruct (sameShape_GetStringArray listImagesFlags cmd "extra-repo" [] Hshape) as [extraRepos He];
    [vm_compute; reflexivity |].
  destruct (sameShape_GetString listImagesFlags cmd "output" "" Hshape) as [output Ho];
    [vm_compute; reflexivity |].
  destruct (sameShape_GetStringArray listImagesFlags cmd "filter" [] Hshape) as [filter Hf];
    [vm_compute; reflexivity |].
  exists dataDir, extraRepos, output, filter.
  unfold cmdListImages. rewrite Hd, He, Ho, Hf. done.
Qed.

Lemma list_images_finds_its_flags_witness :
  cmdListImages (fun _ _ _ _ => None) (<["filter" := FStringArray ["type:iot*"]]> listImagesFlags)
  = inr tt.
Proof.
  destruct (list_images_finds_its_flags (fun _ _ _ _ => None)
              (<["filter" := FStringArray ["type:iot*"]]> listImagesFlags))
    as (dataDir & extraRepos & output & filter & _ & _ & _ & _ & Hrun).
  - apply (bool_decide_unpack _). vm_compute. exact I.
  - rewrite Hrun. reflexivity.
Defined.
